(* ===================================================================== *)
(* AuthContext.tsx (frontend/src/context): the authentication provider    *)
(* of the NOVA client, as a labelled transition system.                   *)
(*                                                                        *)
(* The component is a React provider: one useState cell of type           *)
(* AuthState, a listener registered with onAuthStateChanged, and four     *)
(* operations (login, signup, logout, clearError).  All of it runs on     *)
(* one JavaScript thread; an async function runs until its next await,    *)
(* is suspended, and is resumed when the awaited promise settles.  The    *)
(* embedding keeps exactly that structure: every piece of code between    *)
(* two awaits is one transition, a suspended function is a Task, and the  *)
(* environment (identity provider, backend, caller) picks the events.     *)
(* ===================================================================== *)

From stdpp Require Import base option strings gmap list.

Open Scope string_scope.
Open Scope list_scope.

(* --------------------------------------------------------------------- *)
(* JavaScript values                                                      *)
(* --------------------------------------------------------------------- *)

(* Property values of the plain objects the component handles. *)
Inductive JsVal :=
| VStr (s : string)
| VNum (n : Z)
| VBool (b : bool)
| VNull.

#[global] Instance JsVal_eq_dec : EqDecision JsVal.
Proof. solve_decision. Defined.

(* A plain object: its own enumerable properties. *)
Abbreviation JsObject := (gmap string JsVal).

(* Object spread: [{ ...target, ...src }], every property of [src] is
   written onto [target], replacing a property of the same name. *)
Definition spread (src target : JsObject) : JsObject := src ∪ target.

(* What a [throw] or a rejected promise carries.  [catch (error)] receives
   any value; the code tells an instance of Error (which has a string
   [message]) from anything else with [instanceof]. *)
Inductive JsThrown :=
| ErrorInstance (message : string)
| NonError (properties : JsObject).

#[global] Instance JsThrown_eq_dec : EqDecision JsThrown.
Proof. solve_decision. Defined.

(* The [message] property of a thrown value, when it is a string. *)
Definition messageOf (t : JsThrown) : option string :=
  match t with
  | ErrorInstance m => Some m
  | NonError o =>
      match o !! "message" with
      | Some (VStr m) => Some m
      | _ => None
      end
  end.

(* How an awaited promise (or a call inside [try]) ends. *)
Inductive Settled (A : Type) :=
| Fulfilled (a : A)
| Rejected (t : JsThrown).
Arguments Fulfilled {A} a.
Arguments Rejected {A} t.

#[global] Instance Settled_eq_dec `{EqDecision A} : EqDecision (Settled A).
Proof. solve_decision. Defined.

(* --------------------------------------------------------------------- *)
(* Data model (lines 6-24 and the collaborators' values)                  *)
(* --------------------------------------------------------------------- *)

(* interface User { uid: string; email?: string; displayName?: string }
   is built at run time as the object [{ uid, ...profile }]. *)
Abbreviation User := (gmap string JsVal).

(* interface AuthState *)
Record AuthState := {
  user : option User;
  isAuthenticated : bool;
  isLoading : bool;
  error : option string;
}.

#[global] Instance AuthState_eq_dec : EqDecision AuthState.
Proof. solve_decision. Defined.

(* The part of firebase's User the listener reads. *)
Record FirebaseUser := { uid : string }.

(* The answer of apiClient.login / apiClient.signup. *)
Record AuthResponse := { custom_token : string }.

(* The two operations that share one shape. *)
Inductive Op := Login | Signup.

#[global] Instance Op_eq_dec : EqDecision Op.
Proof. solve_decision. Defined.

(* --------------------------------------------------------------------- *)
(* The states the code writes                                             *)
(* --------------------------------------------------------------------- *)

(* useState<AuthState>({ ... }), lines 33-38 *)
Definition initialState : AuthState :=
  {| user := None; isAuthenticated := false; isLoading := true; error := None |}.

(* lines 49-54: the value passed to setState after the profile arrived *)
Definition profileLoaded (uid : string) (profile : JsObject) : AuthState :=
  {| user := Some (spread profile {[ "uid" := VStr uid ]});
     isAuthenticated := true;
     isLoading := false;
     error := None |}.

(* line 58: prev => ({ ...prev, error: 'Failed to load profile' }) *)
Definition profileFailed (prev : AuthState) : AuthState :=
  {| user := user prev;
     isAuthenticated := isAuthenticated prev;
     isLoading := isLoading prev;
     error := Some "Failed to load profile" |}.

(* lines 62-67: the value passed to setState when there is no session *)
Definition signedOut : AuthState :=
  {| user := None; isAuthenticated := false; isLoading := false; error := None |}.

(* lines 75 and 87: prev => ({ ...prev, isLoading: true, error: null }) *)
Definition opStarted (prev : AuthState) : AuthState :=
  {| user := user prev;
     isAuthenticated := isAuthenticated prev;
     isLoading := true;
     error := None |}.

(* lines 80 and 92: error instanceof Error ? error.message : '... failed' *)
Definition fallbackMessage (op : Op) : string :=
  match op with
  | Login => "Login failed"
  | Signup => "Signup failed"
  end.

Definition errMsg (op : Op) (t : JsThrown) : string :=
  match t with
  | ErrorInstance message => message
  | NonError _ => fallbackMessage op
  end.

(* lines 81 and 93: prev => ({ ...prev, isLoading: false, error: errMsg }) *)
Definition opFailed (msg : string) (prev : AuthState) : AuthState :=
  {| user := user prev;
     isAuthenticated := isAuthenticated prev;
     isLoading := false;
     error := Some msg |}.

(* line 108: prev => ({ ...prev, error: null }) *)
Definition errorCleared (prev : AuthState) : AuthState :=
  {| user := user prev;
     isAuthenticated := isAuthenticated prev;
     isLoading := isLoading prev;
     error := None |}.

(* --------------------------------------------------------------------- *)
(* The provider as a transition system                                    *)
(* --------------------------------------------------------------------- *)

(* An async function suspended at an await, with the variables it still
   needs when it resumes; or a promise the code obtained and did not
   await, which settles later with nobody listening. *)
Inductive Task :=
| AwaitProfile (uid : string)      (* listener, at line 48 *)
| AwaitBackend (op : Op)           (* login at line 77, signup at line 89 *)
| AwaitExchange (op : Op)          (* login at line 78, signup at line 90 *)
| AwaitSignOut                     (* logout, at line 100 *)
| Unawaited.                       (* what apiClient.logout() returned, line 101 *)

#[global] Instance Task_eq_dec : EqDecision Task.
Proof. solve_decision. Defined.

(* Calls to the collaborators. *)
Inductive Call :=
| GetProfile
| BackendLogin (email password : string)
| BackendSignup (email password : string)
| TokenExchange (token : string)
| SignOut
| BackendLogout.

#[global] Instance Call_eq_dec : EqDecision Call.
Proof. solve_decision. Defined.

(* What the component does that can be seen from outside, in order. *)
Inductive Effect :=
| Commit (s : AuthState)                   (* setState took effect, giving s *)
| Called (c : Call)
| CacheSet (token uid : string)            (* authManager.setAuth *)
| CacheCleared                             (* authManager.clearAuth *)
| ConsoleError (label : string) (t : JsThrown)
| Returned (id : nat) (r : Settled unit)   (* the promise of call id settled *)
| UnhandledRejection (t : JsThrown).       (* a rejection no handler received *)

#[global] Instance Effect_eq_dec : EqDecision Effect.
Proof. solve_decision. Defined.

Record World := {
  state : AuthState;                 (* the useState cell *)
  cache : option (string * string);  (* authManager: last (token, uid) stored *)
  tasks : gmap nat Task;             (* suspended calls, by call id *)
  nextId : nat;                      (* id of the next async call *)
  trace : list Effect;               (* effects so far, oldest first *)
}.

Definition initialWorld : World :=
  {| state := initialState; cache := None; tasks := ∅; nextId := 0; trace := [] |}.

Notation "w |> f" := (f w) (at level 45, left associativity, only parsing).

Definition emit (es : list Effect) (w : World) : World :=
  {| state := state w; cache := cache w; tasks := tasks w;
     nextId := nextId w; trace := trace w ++ es |}.

(* setState(f); the form setState(value) is [setState (λ _, value)]. *)
Definition setState (f : AuthState → AuthState) (w : World) : World :=
  {| state := f (state w); cache := cache w; tasks := tasks w;
     nextId := nextId w; trace := trace w ++ [Commit (f (state w))] |}.

(** Modelled from the spec: authManager.setAuth of '@/api/client', which is
    not among the sources.  The local credential cache collaborator's
    setAuth(token, subjectId) stores the pair; a best-effort side store
    that does not throw. *)
Definition setAuth (token uid : string) (w : World) : World :=
  {| state := state w; cache := Some (token, uid); tasks := tasks w;
     nextId := nextId w; trace := trace w ++ [CacheSet token uid] |}.

(** Modelled from the spec: authManager.clearAuth of '@/api/client', which
    is not among the sources.  clearAuth() empties the store and does not
    throw. *)
Definition clearAuth (w : World) : World :=
  {| state := state w; cache := None; tasks := tasks w;
     nextId := nextId w; trace := trace w ++ [CacheCleared] |}.

Definition call (c : Call) : World → World := emit [Called c].

Definition consoleError (label : string) (t : JsThrown) : World → World :=
  emit [ConsoleError label t].

(* A new async call reaches its first await. *)
Definition suspend (k : Task) (w : World) : World :=
  {| state := state w; cache := cache w;
     tasks := <[nextId w := k]> (tasks w);
     nextId := S (nextId w); trace := trace w |}.

(* A resumed call reaches its next await. *)
Definition suspendAgain (i : nat) (k : Task) (w : World) : World :=
  {| state := state w; cache := cache w;
     tasks := <[i := k]> (tasks w);
     nextId := nextId w; trace := trace w |}.

(* A resumed call runs to its end: its promise settles with r. *)
Definition finish (i : nat) (r : Settled unit) (w : World) : World :=
  {| state := state w; cache := cache w;
     tasks := delete i (tasks w);
     nextId := nextId w; trace := trace w ++ [Returned i r] |}.

(* A promise nobody awaits has settled. *)
Definition discard (i : nat) (w : World) : World :=
  {| state := state w; cache := cache w;
     tasks := delete i (tasks w);
     nextId := nextId w; trace := trace w |}.

(* An async call that ends before any await. *)
Definition finishNow (r : Settled unit) (w : World) : World :=
  {| state := state w; cache := cache w; tasks := tasks w;
     nextId := S (nextId w); trace := trace w ++ [Returned (nextId w) r] |}.

(* ---- the listener, lines 44-69 ---- *)

(* up to the await of line 48, or to the end in the else branch *)
Definition onAuthStateChanged (firebaseUser : option FirebaseUser) (w : World) : World :=
  match firebaseUser with
  | Some fu =>
      w |> call GetProfile |> suspend (AwaitProfile (uid fu))
  | None =>
      w |> clearAuth |> setState (λ _, signedOut) |> finishNow (Fulfilled ())
  end.

(* from the await of line 48 to the end; line 55 stores the empty token:
   authManager.setAuth('', uid) *)
Definition onProfileSettled (i : nat) (uid : string) (r : Settled JsObject) (w : World) : World :=
  match r with
  | Fulfilled profile =>
      w |> setState (λ _, profileLoaded uid profile)
        |> setAuth EmptyString uid
        |> finish i (Fulfilled ())
  | Rejected t =>
      w |> consoleError "Failed to fetch profile:" t
        |> setState profileFailed
        |> finish i (Fulfilled ())
  end.

(* ---- login and signup, lines 74-96 ---- *)

Definition backendCall (op : Op) (email password : string) : Call :=
  match op with
  | Login => BackendLogin email password
  | Signup => BackendSignup email password
  end.

(* up to the first await *)
Definition startOp (op : Op) (email password : string) (w : World) : World :=
  w |> setState opStarted
    |> call (backendCall op email password)
    |> suspend (AwaitBackend op).

(* the catch block *)
Definition catchOp (op : Op) (i : nat) (t : JsThrown) (w : World) : World :=
  w |> setState (opFailed (errMsg op t))
    |> finish i (Rejected t).

(* from the first await to the second *)
Definition onBackendSettled (op : Op) (i : nat) (r : Settled AuthResponse) (w : World) : World :=
  match r with
  | Fulfilled response =>
      w |> call (TokenExchange (custom_token response))
        |> suspendAgain i (AwaitExchange op)
  | Rejected t => catchOp op i t w
  end.

(* from the second await to the end *)
Definition onExchangeSettled (op : Op) (i : nat) (r : Settled unit) (w : World) : World :=
  match r with
  | Fulfilled _ => w |> finish i (Fulfilled ())
  | Rejected t => catchOp op i t w
  end.

(* ---- logout, lines 98-105 ---- *)

Definition startLogout (w : World) : World :=
  w |> call SignOut |> suspend AwaitSignOut.

(* from the await of line 100 to the end.  apiClient.logout() is called
   without await: [backendLogout] says whether that call threw or returned.
   What it returned (a promise, by the backend collaborator's interface) is
   not awaited: logout ends at once, and the promise stays behind as an
   Unawaited task that settles on its own later. *)
Definition onSignOutSettled (i : nat) (r backendLogout : Settled unit) (w : World) : World :=
  match r with
  | Fulfilled _ =>
      match backendLogout with
      | Fulfilled _ =>
          w |> call BackendLogout
            |> suspend Unawaited
            |> finish i (Fulfilled ())
      | Rejected t =>
          w |> call BackendLogout
            |> consoleError "Logout failed:" t
            |> finish i (Fulfilled ())
      end
  | Rejected t =>
      w |> consoleError "Logout failed:" t |> finish i (Fulfilled ())
  end.

(* The promise of line 101 settles.  No code of the component is attached
   to it: a fulfilment passes unseen, a rejection reaches no catch block
   and no console.error, and is left to the runtime as unhandled. *)
Definition onBackendLogoutSettled (i : nat) (r : Settled unit) (w : World) : World :=
  match r with
  | Fulfilled _ => w |> discard i
  | Rejected t => w |> emit [UnhandledRejection t] |> discard i
  end.

(* ---- clearError, lines 107-109 ---- *)

Definition clearError (w : World) : World := w |> setState errorCleared.

(* ---- events ---- *)

Inductive Event :=
| AuthStateChanged (firebaseUser : option FirebaseUser)
| CallOp (op : Op) (email password : string)
| CallLogout
| CallClearError
| ProfileSettled (i : nat) (r : Settled JsObject)
| BackendSettled (i : nat) (r : Settled AuthResponse)
| ExchangeSettled (i : nat) (r : Settled unit)
| SignOutSettled (i : nat) (r backendLogout : Settled unit)
| BackendLogoutSettled (i : nat) (r : Settled unit).

(* One event.  None: the event cannot happen in w (no call i is suspended
   at that await). *)
Definition step (e : Event) (w : World) : option World :=
  match e with
  | AuthStateChanged firebaseUser => Some (onAuthStateChanged firebaseUser w)
  | CallOp op email password => Some (startOp op email password w)
  | CallLogout => Some (startLogout w)
  | CallClearError => Some (clearError w)
  | ProfileSettled i r =>
      match tasks w !! i with
      | Some (AwaitProfile uid) => Some (onProfileSettled i uid r w)
      | _ => None
      end
  | BackendSettled i r =>
      match tasks w !! i with
      | Some (AwaitBackend op) => Some (onBackendSettled op i r w)
      | _ => None
      end
  | ExchangeSettled i r =>
      match tasks w !! i with
      | Some (AwaitExchange op) => Some (onExchangeSettled op i r w)
      | _ => None
      end
  | SignOutSettled i r backendLogout =>
      match tasks w !! i with
      | Some AwaitSignOut => Some (onSignOutSettled i r backendLogout w)
      | _ => None
      end
  | BackendLogoutSettled i r =>
      match tasks w !! i with
      | Some Unawaited => Some (onBackendLogoutSettled i r w)
      | _ => None
      end
  end.

Fixpoint run (evs : list Event) (w : World) : option World :=
  match evs with
  | [] => Some w
  | e :: evs' =>
      match step e w with
      | Some w' => run evs' w'
      | None => None
      end
  end.

(* The states setState produced, oldest first. *)
Fixpoint commits (es : list Effect) : list AuthState :=
  match es with
  | [] => []
  | Commit s :: es' => s :: commits es'
  | _ :: es' => commits es'
  end.

(* ---- useAuth, lines 26 and 111-124 ---- *)

(* interface AuthContextType extends AuthState: the state's four fields
   and the four operations.  An operation is the event its call raises. *)
Record AuthContextType := {
  ctx_user : option User;
  ctx_isAuthenticated : bool;
  ctx_isLoading : bool;
  ctx_error : option string;
  login : string → string → Event;
  signup : string → string → Event;
  logout : Event;
  ctx_clearError : Event;
}.

(* line 112: value={{ ...state, login, signup, logout, clearError }} *)
Definition providerValue (s : AuthState) : AuthContextType :=
  {| ctx_user := user s;
     ctx_isAuthenticated := isAuthenticated s;
     ctx_isLoading := isLoading s;
     ctx_error := error s;
     login := CallOp Login;
     signup := CallOp Signup;
     logout := CallLogout;
     ctx_clearError := CallClearError |}.

(* useContext(AuthContext): the value of the nearest AuthProvider above the
   caller, or the default of createContext (null, line 26) without one. *)
Definition useContext (provider : option AuthState) : option AuthContextType :=
  match provider with
  | Some s => Some (providerValue s)
  | None => None
  end.

Definition useAuth (provider : option AuthState) : Settled AuthContextType :=
  match useContext provider with
  | None => Rejected (ErrorInstance "useAuth must be used within an AuthProvider")
  | Some context => Fulfilled context
  end.

(* --------------------------------------------------------------------- *)
(* Notions the statements below use                                       *)
(* --------------------------------------------------------------------- *)

(* isAuthenticated says whether user is present. *)
Definition consistent (s : AuthState) : Prop :=
  isAuthenticated s = true ↔ is_Some (user s).

(* The cell and every state that was ever committed are consistent. *)
Definition worldConsistent (w : World) : Prop :=
  consistent (state w) ∧ Forall consistent (commits (trace w)).

(* The two awaits inside the try block of login and signup. *)
Inductive Stage := AtBackend | AtExchange.

Definition awaiting (stage : Stage) (op : Op) : Task :=
  match stage with
  | AtBackend => AwaitBackend op
  | AtExchange => AwaitExchange op
  end.

(* The awaited promise of that stage rejects with t. *)
Definition failsAt (stage : Stage) (i : nat) (t : JsThrown) : Event :=
  match stage with
  | AtBackend => BackendSettled i (Rejected t)
  | AtExchange => ExchangeSettled i (Rejected t)
  end.

(* The named effects are all that w' adds to the trace of w. *)
Ltac adds es :=
  exists es; split; [simpl; rewrite <- ?app_assoc; done | done].

(* A list of effects written out holds no rejection of a promise. *)
Ltac no_rejection :=
  rewrite ?not_elem_of_cons; repeat split; solve [discriminate | apply not_elem_of_nil].

(* The two events after which the listener writes user, isAuthenticated
   and the cache: the absence branch and the fulfilled profile fetch. *)
Definition writesIdentity (e : Event) : bool :=
  match e with
  | AuthStateChanged None => true
  | ProfileSettled _ (Fulfilled _) => true
  | _ => false
  end.

(* A call of login or signup. *)
Definition callsOp (e : Event) : bool :=
  match e with
  | CallOp _ _ _ => true
  | _ => false
  end.

(* A function suspended inside login or signup. *)
Definition opTask (k : Task) : bool :=
  match k with
  | AwaitBackend _ | AwaitExchange _ => true
  | AwaitProfile _ | AwaitSignOut | Unawaited => false
  end.

(* A promise that settled by rejecting. *)
Definition isRejection (e : Effect) : bool :=
  match e with
  | Returned _ (Rejected _) => true
  | _ => false
  end.

(* A call to a collaborator. *)
Definition isCall (e : Effect) : bool :=
  match e with
  | Called _ => true
  | _ => false
  end.

(* No login or signup is suspended and no promise has rejected. *)
Definition neverRejected (w : World) : Prop :=
  (∀ i k, tasks w !! i = Some k → opTask k = false)
  ∧ forallb (λ e, negb (isRejection e)) (trace w) = true.

(* No event of the list writes user, isAuthenticated or the cache. *)
Definition keepsIdentity (evs : list Event) : bool :=
  forallb (λ e, negb (writesIdentity e)) evs.

(* After the events evs, the cache and the user field are what the last
   event that writes them left: nothing, when there was none or it was an
   absence event; when it was a fulfilled profile fetch, the empty token
   with the subject that the settled listener call had captured, and that
   subject's { uid, ...profile } for the profile the fetch delivered. *)
Definition identityFrom (evs : list Event) (w : World) : Prop :=
  (cache w = None ∧ user (state w) = None
   ∧ (keepsIdentity evs = true
      ∨ ∃ evs1 evs2,
          evs = evs1 ++ AuthStateChanged None :: evs2
          ∧ keepsIdentity evs2 = true))
  ∨ ∃ subject profile evs1 evs2 w1 i,
      cache w = Some (EmptyString, subject)
      ∧ user (state w) = Some (spread profile {[ "uid" := VStr subject ]})
      ∧ evs = evs1 ++ ProfileSettled i (Fulfilled profile) :: evs2
      ∧ keepsIdentity evs2 = true
      ∧ run evs1 initialWorld = Some w1
      ∧ tasks w1 !! i = Some (AwaitProfile subject).

(* Every listener call suspended at its profile fetch was started by a
   presence event of evs, and holds the uid of that event. *)
Definition fetchesFromPresence (evs : list Event) (w : World) : Prop :=
  ∀ i subject,
    tasks w !! i = Some (AwaitProfile subject) →
    AuthStateChanged (Some {| uid := subject |}) ∈ evs.

(* The events of a login or signup whose try block fails at a stage: the
   call, a fulfilled backend call when the exchange is the one that fails,
   and the rejection. *)
Definition failingOp (op : Op) (email password : string) (stage : Stage)
    (response : AuthResponse) (i : nat) (t : JsThrown) : list Event :=
  match stage with
  | AtBackend =>
      [CallOp op email password; BackendSettled i (Rejected t)]
  | AtExchange =>
      [CallOp op email password; BackendSettled i (Fulfilled response);
       ExchangeSettled i (Rejected t)]
  end.

(* Case analysis on an enabled event: which segment of the code ran. *)
Ltac step_cases H :=
  match type of H with
  | step ?e ?w = Some _ =>
      destruct e as [[?fu|]|?op ?email ?password| | |?i ?r|?i ?r|?i ?r|?i ?r ?b|?i ?r];
      simpl in H;
      try (match type of H with
           | context [tasks w !! ?i] =>
               destruct (tasks w !! i) as [[?subject|?op|?op| |]|] eqn:?Htask;
               try discriminate H
           end);
      injection H as <-
  end.

(* --------------------------------------------------------------------- *)
(* Scenarios of the specification, run on the model                       *)
(* --------------------------------------------------------------------- *)

Example scenario_1 :
  state <$> run [AuthStateChanged (Some {| uid := "u1" |});
                 ProfileSettled 0 (Fulfilled {[ "email" := VStr "a@x.com" ]})]
                initialWorld
  = Some {| user := Some {[ "uid" := VStr "u1"; "email" := VStr "a@x.com" ]};
            isAuthenticated := true; isLoading := false; error := None |}.
Proof. vm_compute. reflexivity. Qed.

(* --------------------------------------------------------------------- *)
(* Basic facts about the primitives                                       *)
(* --------------------------------------------------------------------- *)

Lemma commits_app (es1 es2 : list Effect) :
  commits (es1 ++ es2) = commits es1 ++ commits es2.
Proof.
  induction es1 as [|e es1 IH]; [done|].
  destruct e; simpl; by rewrite ?IH.
Qed.

Lemma run_app (evs1 evs2 : list Event) (w : World) :
  run (evs1 ++ evs2) w = run evs1 w ≫= run evs2.
Proof.
  revert w. induction evs1 as [|e evs1 IH]; intros w; simpl; [done|].
  destruct (step e w); simpl; [apply IH | done].
Qed.

(* --------------------------------------------------------------------- *)
(* The consistency invariant of AuthState                                 *)
(* --------------------------------------------------------------------- *)

Lemma consistent_initialState : consistent initialState.
Proof. split; [done | by intros [? ?]]. Qed.

Lemma consistent_signedOut : consistent signedOut.
Proof. split; [done | by intros [? ?]]. Qed.

Lemma consistent_profileLoaded uid profile : consistent (profileLoaded uid profile).
Proof. split; [by eexists | done]. Qed.

(* The updaters copy user and isAuthenticated from prev. *)
Lemma consistent_frame (f : AuthState → AuthState) :
  (∀ prev, user (f prev) = user prev ∧ isAuthenticated (f prev) = isAuthenticated prev) →
  ∀ prev, consistent prev → consistent (f prev).
Proof.
  intros Hf prev Hc. destruct (Hf prev) as [Hu Ha].
  unfold consistent. by rewrite Hu, Ha.
Qed.

Lemma worldConsistent_setState f w :
  (∀ prev, consistent prev → consistent (f prev)) →
  worldConsistent w → worldConsistent (setState f w).
Proof.
  intros Hf [Hs Ht]. split; simpl; [by apply Hf|].
  rewrite commits_app. apply Forall_app. split; [done|].
  simpl. constructor; [by apply Hf | constructor].
Qed.

Lemma worldConsistent_quiet w w' :
  state w' = state w →
  (∃ es, trace w' = trace w ++ es ∧ commits es = []) →
  worldConsistent w → worldConsistent w'.
Proof.
  intros Hst (es & Htr & Hes) [Hs Ht]. split; [by rewrite Hst|].
  rewrite Htr, commits_app, Hes, app_nil_r. done.
Qed.

Lemma worldConsistent_step e w w' :
  step e w = Some w' → worldConsistent w → worldConsistent w'.
Proof.
  intros Hstep Hw. destruct e as [[fu|]|op email password| | |i r|i r|i r|i r b|i r];
    simpl in Hstep.
  - (* presence: no commit before the await *)
    injection Hstep as <-.
    apply (worldConsistent_quiet w); [done| |done].
    adds [Called GetProfile].
  - (* absence *)
    injection Hstep as <-. unfold onAuthStateChanged.
    apply (worldConsistent_quiet (w |> clearAuth |> setState (λ _, signedOut))); [done| |].
    { adds [Returned (nextId w) (Fulfilled ())]. }
    apply worldConsistent_setState; [intros; apply consistent_signedOut|].
    apply (worldConsistent_quiet w); [done| |done]. adds [CacheCleared].
  - (* login, signup: first segment *)
    injection Hstep as <-. unfold startOp.
    apply (worldConsistent_quiet (w |> setState opStarted)); [done| |].
    { adds [Called (backendCall op email password)]. }
    apply worldConsistent_setState; [|done]. by apply consistent_frame.
  - (* logout: first segment *)
    injection Hstep as <-.
    apply (worldConsistent_quiet w); [done| |done]. adds [Called SignOut].
  - (* clearError *)
    injection Hstep as <-. unfold clearError.
    apply worldConsistent_setState; [|done]. by apply consistent_frame.
  - (* the profile fetch settles *)
    destruct (tasks w !! i) as [[uid| | | |]|]; try done.
    injection Hstep as <-. destruct r as [profile|t]; unfold onProfileSettled.
    + apply (worldConsistent_quiet (w |> setState (λ _, profileLoaded uid profile))); [done| |].
      { adds [CacheSet EmptyString uid; Returned i (Fulfilled ())]. }
      apply worldConsistent_setState; [intros; apply consistent_profileLoaded | done].
    + apply (worldConsistent_quiet
               (w |> consoleError "Failed to fetch profile:" t |> setState profileFailed));
        [done| |].
      { adds [Returned i (Fulfilled ())]. }
      apply worldConsistent_setState; [by apply consistent_frame|].
      apply (worldConsistent_quiet w); [done| |done].
      adds [ConsoleError "Failed to fetch profile:" t].
  - (* the backend call of login or signup settles *)
    destruct (tasks w !! i) as [[|op| | |]|]; try done.
    injection Hstep as <-. destruct r as [response|t]; unfold onBackendSettled.
    + apply (worldConsistent_quiet w); [done| |done].
      adds [Called (TokenExchange (custom_token response))].
    + unfold catchOp.
      apply (worldConsistent_quiet (w |> setState (opFailed (errMsg op t)))); [done| |].
      { adds [Returned i (Rejected t)]. }
      apply worldConsistent_setState; [|done]. by apply consistent_frame.
  - (* the token exchange settles *)
    destruct (tasks w !! i) as [[| |op| |]|]; try done.
    injection Hstep as <-. destruct r as [[]|t]; unfold onExchangeSettled.
    + apply (worldConsistent_quiet w); [done| |done].
      adds [Returned i (Fulfilled ())].
    + unfold catchOp.
      apply (worldConsistent_quiet (w |> setState (opFailed (errMsg op t)))); [done| |].
      { adds [Returned i (Rejected t)]. }
      apply worldConsistent_setState; [|done]. by apply consistent_frame.
  - (* sign-out settles: logout never calls setState *)
    destruct (tasks w !! i) as [[| | | |]|]; try done.
    injection Hstep as <-.
    apply (worldConsistent_quiet w); [by destruct r as [[]|?], b as [[]|?]| |done].
    destruct r as [[]|t], b as [[]|t'].
    + adds [Called BackendLogout; Returned i (Fulfilled ())].
    + adds [Called BackendLogout; ConsoleError "Logout failed:" t';
            Returned i (Fulfilled ())].
    + adds [ConsoleError "Logout failed:" t; Returned i (Fulfilled ())].
    + adds [ConsoleError "Logout failed:" t; Returned i (Fulfilled ())].
  - (* the promise of the backend logout settles: no code runs *)
    destruct (tasks w !! i) as [[| | | |]|]; try done.
    injection Hstep as <-.
    apply (worldConsistent_quiet w); [by destruct r| |done].
    destruct r as [[]|t].
    + exists []. by rewrite app_nil_r.
    + adds [UnhandledRejection t].
Qed.

Lemma worldConsistent_run evs w w' :
  run evs w = Some w' → worldConsistent w → worldConsistent w'.
Proof.
  revert w. induction evs as [|e evs IH]; intros w Hrun Hw; simpl in Hrun.
  - by injection Hrun as <-.
  - destruct (step e w) as [w1|] eqn:Hstep; [|done].
    eapply IH; [done|]. by eapply worldConsistent_step.
Qed.

(** C1: in every reachable state of the provider (the initial state and
    whatever any sequence of listener callbacks, login, signup, logout and
    clearError calls and settled awaits leads to), isAuthenticated is true
    exactly when user is present; the same holds of every state that
    setState committed on the way. *)
Theorem isAuthenticated_iff_user_present (evs : list Event) (w : World) :
  run evs initialWorld = Some w →
  (isAuthenticated (state w) = true ↔ is_Some (user (state w)))
  ∧ Forall (λ s, isAuthenticated s = true ↔ is_Some (user s)) (commits (trace w)).
Proof.
  intros Hrun.
  apply (worldConsistent_run evs initialWorld w Hrun).
  split; [apply consistent_initialState | constructor].
Qed.

Lemma isAuthenticated_iff_user_present_witness :
  ∃ w, run [AuthStateChanged (Some {| uid := "u1" |});
            CallOp Login "a@x.com" "pw";
            ProfileSettled 0 (Fulfilled {[ "email" := VStr "a@x.com" ]});
            BackendSettled 1 (Rejected (ErrorInstance "invalid credentials"))]
           initialWorld = Some w
       ∧ (isAuthenticated (state w) = true ↔ is_Some (user (state w))).
Proof.
  eexists. split; [vm_compute; reflexivity|].
  refine (proj1 (isAuthenticated_iff_user_present
            [AuthStateChanged (Some {| uid := "u1" |});
             CallOp Login "a@x.com" "pw";
             ProfileSettled 0 (Fulfilled {[ "email" := VStr "a@x.com" ]});
             BackendSettled 1 (Rejected (ErrorInstance "invalid credentials"))] _ _)).
  vm_compute. reflexivity.
Defined.

(* --------------------------------------------------------------------- *)
(* The absence branch of the listener                                     *)
(* --------------------------------------------------------------------- *)

(** C3: whatever the world was, a session-absence event can be processed;
    the listener first clears the credential cache and then commits exactly
    {user: absent, isAuthenticated: false, isLoading: false, error: absent}. *)
Theorem absence_clears_cache_then_commits (w : World) :
  ∃ w', step (AuthStateChanged None) w = Some w'
    ∧ state w' = {| user := None; isAuthenticated := false;
                    isLoading := false; error := None |}
    ∧ cache w' = None
    ∧ trace w' = trace w ++
        [CacheCleared;
         Commit {| user := None; isAuthenticated := false;
                   isLoading := false; error := None |};
         Returned (nextId w) (Fulfilled ())].
Proof.
  eexists. split; [reflexivity|]. repeat split.
  simpl. by rewrite <- !app_assoc.
Qed.

(* --------------------------------------------------------------------- *)
(* clearError                                                             *)
(* --------------------------------------------------------------------- *)

(** C8: clearError always succeeds, sets error to absent and leaves user,
    isAuthenticated and isLoading (and the cache and the suspended calls) as
    they were; calling it twice gives the same state as calling it once. *)
Theorem clearError_frame_and_idempotent (w : World) :
  ∃ w1, step CallClearError w = Some w1
    ∧ error (state w1) = None
    ∧ user (state w1) = user (state w)
    ∧ isAuthenticated (state w1) = isAuthenticated (state w)
    ∧ isLoading (state w1) = isLoading (state w)
    ∧ cache w1 = cache w
    ∧ tasks w1 = tasks w
    ∧ ∃ w2, run [CallClearError; CallClearError] w = Some w2
         ∧ state w2 = state w1.
Proof.
  eexists. split; [reflexivity|]. repeat split.
  eexists. split; reflexivity.
Qed.

(* --------------------------------------------------------------------- *)
(* useAuth                                                                *)
(* --------------------------------------------------------------------- *)

(** C10: outside an AuthProvider (context value absent) useAuth throws the
    Error 'useAuth must be used within an AuthProvider'; inside one it
    returns, without throwing, the provider's current state together with
    login, signup, logout and clearError. *)
Theorem useAuth_throws_outside_returns_inside :
  useAuth None
    = Rejected (ErrorInstance "useAuth must be used within an AuthProvider")
  ∧ ∀ s : AuthState, ∃ context,
      useAuth (Some s) = Fulfilled context
      ∧ ctx_user context = user s
      ∧ ctx_isAuthenticated context = isAuthenticated s
      ∧ ctx_isLoading context = isLoading s
      ∧ ctx_error context = error s
      ∧ (∀ email password w,
            step (login context email password) w = Some (startOp Login email password w))
      ∧ (∀ email password w,
            step (signup context email password) w = Some (startOp Signup email password w))
      ∧ (∀ w, step (logout context) w = Some (startLogout w))
      ∧ (∀ w, step (ctx_clearError context) w = Some (clearError w)).
Proof.
  split; [reflexivity|].
  intros s. exists (providerValue s). repeat split.
Qed.

(* --------------------------------------------------------------------- *)
(* logout                                                                 *)
(* --------------------------------------------------------------------- *)

(** What logout does keep: it never re-raises and never commits.  Its
    first segment only calls the provider's sign-out; whatever happens
    while it is suspended, and whether sign-out is fulfilled or rejected and
    the backend logout call returns or throws, the rest of logout leaves the
    state cell as it finds it, calls setState not once, logs every error its
    catch block receives (a rejected sign-out, a throw of the backend logout
    call) with console.error and fulfils the promise logout returned. *)
Theorem logout_never_rejects_never_commits
    (w w1 : World) (evs : list Event) (r backendLogout : Settled unit) :
  run evs (startLogout w) = Some w1 →
  tasks w1 !! nextId w = Some AwaitSignOut →
  step CallLogout w = Some (startLogout w)
  ∧ state (startLogout w) = state w
  ∧ trace (startLogout w) = trace w ++ [Called SignOut]
  ∧ ∃ w2 es,
      step (SignOutSettled (nextId w) r backendLogout) w1 = Some w2
      ∧ state w2 = state w1
      ∧ trace w2 = trace w1 ++ es ++ [Returned (nextId w) (Fulfilled ())]
      ∧ commits es = []
      ∧ (∀ id t, Returned id (Rejected t) ∉ es)
      ∧ (∀ t, r = Rejected t → ConsoleError "Logout failed:" t ∈ es)
      ∧ (∀ t, r = Fulfilled () → backendLogout = Rejected t →
              ConsoleError "Logout failed:" t ∈ es).
Proof.
  intros _ Htask. repeat split.
  simpl. rewrite Htask.
  destruct r as [[]|t], backendLogout as [[]|t'].
  - exists (onSignOutSettled (nextId w) (Fulfilled ()) (Fulfilled ()) w1),
           [Called BackendLogout].
    repeat split; [simpl; by rewrite <- !app_assoc| | |]; try done.
    intros id t. no_rejection.
  - exists (onSignOutSettled (nextId w) (Fulfilled ()) (Rejected t') w1),
           [Called BackendLogout; ConsoleError "Logout failed:" t'].
    repeat split; [simpl; by rewrite <- !app_assoc| | |]; try done.
    + intros id t. no_rejection.
    + intros t _ [= ->]. apply list_elem_of_further, list_elem_of_here.
  - exists (onSignOutSettled (nextId w) (Rejected t) (Fulfilled ()) w1),
           [ConsoleError "Logout failed:" t].
    repeat split; [simpl; by rewrite <- !app_assoc| | |]; try done.
    + intros id t0. no_rejection.
    + intros t0 [= ->]. apply list_elem_of_here.
  - exists (onSignOutSettled (nextId w) (Rejected t) (Rejected t') w1),
           [ConsoleError "Logout failed:" t].
    repeat split; [simpl; by rewrite <- !app_assoc| | |]; try done.
    + intros id t0. no_rejection.
    + intros t0 [= ->]. apply list_elem_of_here.
Qed.

Lemma logout_never_rejects_never_commits_witness :
  ∃ w2 es,
    step (SignOutSettled 0 (Rejected (ErrorInstance "network")) (Fulfilled ()))
         (clearError (startLogout initialWorld)) = Some w2
    ∧ state w2 = state (clearError (startLogout initialWorld))
    ∧ trace w2 = trace (clearError (startLogout initialWorld))
                 ++ es ++ [Returned 0 (Fulfilled ())]
    ∧ commits es = []
    ∧ (∀ id t, Returned id (Rejected t) ∉ es)
    ∧ (∀ t, @Rejected unit (ErrorInstance "network") = Rejected t →
            ConsoleError "Logout failed:" t ∈ es)
    ∧ (∀ t, Rejected (ErrorInstance "network") = Fulfilled () →
            @Fulfilled unit () = Rejected t →
            ConsoleError "Logout failed:" t ∈ es).
Proof.
  refine (proj2 (proj2 (proj2 (logout_never_rejects_never_commits
            initialWorld (clearError (startLogout initialWorld)) [CallClearError]
            (Rejected (ErrorInstance "network")) (Fulfilled ()) _ _)))).
  - reflexivity.
  - vm_compute. reflexivity.
Defined.

(* The promise apiClient.logout() returned has no handler: when it rejects,
   the component logs nothing and commits nothing; the rejection is left
   to the runtime. *)
Lemma unawaited_rejection_is_unhandled (w : World) (i : nat) (t : JsThrown) :
  tasks w !! i = Some Unawaited →
  ∃ w', step (BackendLogoutSettled i (Rejected t)) w = Some w'
    ∧ state w' = state w
    ∧ trace w' = trace w ++ [UnhandledRejection t].
Proof. intros Htask. simpl. rewrite Htask. by eexists. Qed.

(** C7: evaluation at the failing input.  logout() is called, the provider's
    sign-out is fulfilled, apiClient.logout() returns its promise and that
    promise is rejected with an Error.  logout has already run to its end
    (its promise fulfilled, no setState), but the error of the backend
    logout is not logged: line 101 does not await the call, so the
    rejection passes the catch block of line 102 by and ends as an
    unhandled rejection.  A rejected sign-out, which line 100 does await,
    is logged. *)
Theorem backend_logout_rejection_not_logged :
  (trace <$>
     run [CallLogout;
          SignOutSettled 0 (Fulfilled ()) (Fulfilled ());
          BackendLogoutSettled 1 (Rejected (ErrorInstance "network"))]
         initialWorld)
    = Some [Called SignOut;
            Called BackendLogout;
            Returned 0 (Fulfilled ());
            UnhandledRejection (ErrorInstance "network")]
  ∧ (trace <$>
       run [CallLogout;
            SignOutSettled 0 (Rejected (ErrorInstance "network")) (Fulfilled ())]
           initialWorld)
    = Some [Called SignOut;
            ConsoleError "Logout failed:" (ErrorInstance "network");
            Returned 0 (Fulfilled ())].
Proof. split; vm_compute; reflexivity. Qed.

(* --------------------------------------------------------------------- *)
(* login and signup                                                       *)
(* --------------------------------------------------------------------- *)

(** C6, counterexample: the backend login call rejects with a plain object
    {message: 'invalid credentials'} that is not an instance of Error; the
    error field becomes 'Login failed', not the message of what was thrown,
    and signup records another text, 'Signup failed', for the same
    rejection. *)
Lemma login_non_Error_message_not_recorded :
  messageOf (NonError {[ "message" := VStr "invalid credentials" ]})
    = Some "invalid credentials"
  ∧ (error ∘ state <$>
       run [CallOp Login "a@x.com" "pw";
            BackendSettled 0
              (Rejected (NonError {[ "message" := VStr "invalid credentials" ]}))]
           initialWorld)
     = Some (Some "Login failed")
  ∧ (error ∘ state <$>
       run [CallOp Login "a@x.com" "pw";
            BackendSettled 0
              (Rejected (NonError {[ "message" := VStr "invalid credentials" ]}))]
           initialWorld)
     ≠ Some (messageOf (NonError {[ "message" := VStr "invalid credentials" ]}))
  ∧ (error ∘ state <$>
       run [CallOp Signup "a@x.com" "pw";
            BackendSettled 0
              (Rejected (NonError {[ "message" := VStr "invalid credentials" ]}))]
           initialWorld)
     = Some (Some "Signup failed").
Proof.
  split; [vm_compute; reflexivity|].
  split; [vm_compute; reflexivity|].
  split; [|vm_compute; reflexivity].
  vm_compute. discriminate.
Qed.

(** C6, amended: login and signup first commit isLoading=true and
    error=absent (other fields kept) and only then call the backend.  If the
    backend call or, after it, the token exchange fails with t, the catch
    block commits isLoading=false and error = the message of t when t is an
    instance of Error, and the fixed text 'Login failed' (login) or 'Signup
    failed' (signup) when it is not; user and isAuthenticated stay as they
    are at that moment, and the operation's promise rejects with t itself. *)
Theorem op_failure_recorded_and_rethrown
    (op : Op) (email password : string) (stage : Stage) (t : JsThrown)
    (w w1 : World) (evs : list Event) :
  run evs (startOp op email password w) = Some w1 →
  tasks w1 !! nextId w = Some (awaiting stage op) →
  step (CallOp op email password) w = Some (startOp op email password w)
  ∧ state (startOp op email password w)
    = {| user := user (state w); isAuthenticated := isAuthenticated (state w);
         isLoading := true; error := None |}
  ∧ trace (startOp op email password w)
    = trace w ++ [Commit (state (startOp op email password w));
                  Called (match op with
                          | Login => BackendLogin email password
                          | Signup => BackendSignup email password
                          end)]
  ∧ ∃ w2,
      step (failsAt stage (nextId w) t) w1 = Some w2
      ∧ state w2
        = {| user := user (state w1); isAuthenticated := isAuthenticated (state w1);
             isLoading := false;
             error := Some (match t, op with
                            | ErrorInstance message, _ => message
                            | NonError _, Login => "Login failed"
                            | NonError _, Signup => "Signup failed"
                            end) |}
      ∧ trace w2 = trace w1 ++ [Commit (state w2); Returned (nextId w) (Rejected t)].
Proof.
  intros _ Htask. split; [reflexivity|]. split; [reflexivity|]. split.
  { simpl. rewrite <- app_assoc. by destruct op. }
  exists (catchOp op (nextId w) t w1). split.
  { destruct stage; simpl in *; by rewrite Htask. }
  split.
  - by destruct t, op.
  - simpl. by rewrite <- app_assoc.
Qed.

Lemma op_failure_recorded_and_rethrown_witness :
  ∃ w2,
    step (BackendSettled 0 (Rejected (ErrorInstance "invalid credentials")))
         (startOp Login "a@x.com" "pw" initialWorld) = Some w2
    ∧ state w2 = {| user := None; isAuthenticated := false; isLoading := false;
                    error := Some "invalid credentials" |}
    ∧ trace w2 = trace (startOp Login "a@x.com" "pw" initialWorld)
                 ++ [Commit (state w2);
                     Returned 0 (Rejected (ErrorInstance "invalid credentials"))].
Proof.
  refine (proj2 (proj2 (proj2 (op_failure_recorded_and_rethrown
            Login "a@x.com" "pw" AtBackend (ErrorInstance "invalid credentials")
            initialWorld (startOp Login "a@x.com" "pw" initialWorld) [] _ _)))).
  - reflexivity.
  - vm_compute. reflexivity.
Defined.

(* Scenario 3 of the specification. *)
Example scenario_3 :
  (λ w, (state w, trace w !! 3)) <$>
    run [AuthStateChanged None;
         CallOp Login "a@x.com" "bad";
         BackendSettled 1 (Rejected (ErrorInstance "invalid credentials"))]
        initialWorld
  = Some ({| user := None; isAuthenticated := false; isLoading := false;
             error := Some "invalid credentials" |},
          Some (Commit {| user := None; isAuthenticated := false; isLoading := true;
                          error := None |})).
Proof. vm_compute. reflexivity. Qed.

(* --------------------------------------------------------------------- *)
(* The presence branch of the listener                                    *)
(* --------------------------------------------------------------------- *)

(** C4, counterexample: at start-up a presence event for 'u1' whose profile
    fetch fails leaves the text 'Failed to load profile' in the error field,
    which is not the text 'profile load failed'. *)
Lemma profile_failure_message_differs :
  (error ∘ state <$>
     run [AuthStateChanged (Some {| uid := "u1" |});
          ProfileSettled 0 (Rejected (ErrorInstance "503"))]
         initialWorld)
    = Some (Some "Failed to load profile")
  ∧ (error ∘ state <$>
       run [AuthStateChanged (Some {| uid := "u1" |});
            ProfileSettled 0 (Rejected (ErrorInstance "503"))]
           initialWorld)
    ≠ Some (Some "profile load failed").
Proof. split; [vm_compute; reflexivity | vm_compute; discriminate]. Qed.

(** C4, amended: when the profile fetch issued by a presence event fails,
    the listener logs the failure and commits a state whose error field is
    'Failed to load profile' and whose user and isAuthenticated fields are
    those of the state it replaces; an authenticated state stays
    authenticated, and the listener itself does not throw. *)
Theorem profile_failure_keeps_user
    (w : World) (i : nat) (subject : string) (t : JsThrown) :
  tasks w !! i = Some (AwaitProfile subject) →
  ∃ w', step (ProfileSettled i (Rejected t)) w = Some w'
    ∧ error (state w') = Some "Failed to load profile"
    ∧ user (state w') = user (state w)
    ∧ isAuthenticated (state w') = isAuthenticated (state w)
    ∧ (isAuthenticated (state w) = true → isAuthenticated (state w') = true)
    ∧ trace w' = trace w ++ [ConsoleError "Failed to fetch profile:" t;
                             Commit (state w');
                             Returned i (Fulfilled ())].
Proof.
  intros Htask. eexists. simpl. rewrite Htask. split; [reflexivity|].
  repeat split; [done|]. simpl. by rewrite <- !app_assoc.
Qed.

Lemma profile_failure_keeps_user_witness :
  ∃ w', step (ProfileSettled 0 (Rejected (ErrorInstance "503")))
             (onAuthStateChanged (Some {| uid := "u1" |}) initialWorld) = Some w'
    ∧ error (state w') = Some "Failed to load profile"
    ∧ user (state w') = None
    ∧ isAuthenticated (state w') = false.
Proof.
  destruct (profile_failure_keeps_user
              (onAuthStateChanged (Some {| uid := "u1" |}) initialWorld)
              0 "u1" (ErrorInstance "503"))
    as (w' & Hstep & Herr & Huser & Hauth & _).
  - vm_compute. reflexivity.
  - exists w'. repeat split; assumption.
Defined.

(* What the success commit of line 49 holds, field by field. *)
Lemma spread_lookup_src (src target : JsObject) k v :
  src !! k = Some v → spread src target !! k = Some v.
Proof. intros H. unfold spread. by apply lookup_union_Some_l. Qed.

Lemma spread_lookup_target (src target : JsObject) k :
  src !! k = None → spread src target !! k = target !! k.
Proof. intros H. unfold spread. by apply lookup_union_r. Qed.

Lemma profileLoaded_all_fields (subject : string) (profile : JsObject) :
  ∃ u, user (profileLoaded subject profile) = Some u
    ∧ (∀ k v, profile !! k = Some v → u !! k = Some v)
    ∧ (profile !! "uid" = None → u !! "uid" = Some (VStr subject))
    ∧ (∀ k, k ≠ "uid" → u !! k = profile !! k).
Proof.
  eexists. split; [reflexivity|]. split; [|split].
  - intros k v H. by apply spread_lookup_src.
  - intros H. rewrite spread_lookup_target by done. apply lookup_singleton_eq.
  - intros k Hk. unfold spread.
    destruct (profile !! k) as [v|] eqn:E.
    + by apply lookup_union_Some_l.
    + rewrite lookup_union_r by done. by apply lookup_singleton_ne.
Qed.

(** C2, counterexample: presence for 'A' (fetch pending), then absence
    (the signed-out state is committed), then the fetch of 'A' is fulfilled:
    the result is not dropped, the cell ends up authenticated as 'A'. *)
Lemma stale_fetch_resurrects_user :
  (state <$>
     run [AuthStateChanged (Some {| uid := "A" |}); AuthStateChanged None]
         initialWorld)
    = Some {| user := None; isAuthenticated := false;
              isLoading := false; error := None |}
  ∧ (state <$>
       run [AuthStateChanged (Some {| uid := "A" |}); AuthStateChanged None;
            ProfileSettled 0 (Fulfilled {[ "email" := VStr "a@x.com" ]})]
           initialWorld)
    = Some {| user := Some {[ "uid" := VStr "A"; "email" := VStr "a@x.com" ]};
              isAuthenticated := true; isLoading := false; error := None |}
  ∧ (state <$>
       run [AuthStateChanged (Some {| uid := "A" |}); AuthStateChanged None;
            ProfileSettled 0 (Fulfilled {[ "email" := VStr "a@x.com" ]})]
           initialWorld)
    ≠ Some {| user := None; isAuthenticated := false;
              isLoading := false; error := None |}.
Proof.
  split; [vm_compute; reflexivity|].
  split; [vm_compute; reflexivity|].
  vm_compute. discriminate.
Qed.

(** C2, amended: the listener keeps no record of which subject is current.
    If a presence event for A starts a profile fetch that is still pending
    after an absence event was processed (and after anything that followed),
    then when the fetch settles its result is used, not dropped: a fulfilled
    fetch commits an authenticated state over whatever is there (user
    present and holding every fetched field, and the uid of A when the
    profile has no uid of its own, isAuthenticated true, isLoading false,
    error absent); a rejected fetch only sets the error text and keeps user
    and isAuthenticated as they are, so right after the absence it leaves
    user absent. *)
Theorem stale_fetch_is_committed
    (w w2 w4 : World) (fu : FirebaseUser) (evs1 evs2 : list Event)
    (r : Settled JsObject) :
  run evs1 (onAuthStateChanged (Some fu) w) = Some w2 →
  run evs2 (onAuthStateChanged None w2) = Some w4 →
  tasks w4 !! nextId w = Some (AwaitProfile (uid fu)) →
  state (onAuthStateChanged None w2)
    = {| user := None; isAuthenticated := false; isLoading := false; error := None |}
  ∧ ∃ w5, step (ProfileSettled (nextId w) r) w4 = Some w5
    ∧ match r with
      | Fulfilled profile =>
          isAuthenticated (state w5) = true
          ∧ isLoading (state w5) = false
          ∧ error (state w5) = None
          ∧ ∃ u, user (state w5) = Some u
               ∧ (∀ k v, profile !! k = Some v → u !! k = Some v)
               ∧ (profile !! "uid" = None → u !! "uid" = Some (VStr (uid fu)))
      | Rejected _ =>
          user (state w5) = user (state w4)
          ∧ isAuthenticated (state w5) = isAuthenticated (state w4)
          ∧ error (state w5) = Some "Failed to load profile"
      end.
Proof.
  intros _ _ Htask. split; [reflexivity|].
  eexists. simpl. rewrite Htask. split; [reflexivity|].
  destruct r as [profile|t]; simpl.
  - repeat split.
    destruct (profileLoaded_all_fields (uid fu) profile) as (u & Hu & Hall & Huid & _).
    exists u. done.
  - done.
Qed.

Lemma stale_fetch_is_committed_witness :
  ∃ w5, step (ProfileSettled 0 (Fulfilled {[ "email" := VStr "a@x.com" ]}))
             (onAuthStateChanged None
                (onAuthStateChanged (Some {| uid := "A" |}) initialWorld)) = Some w5
    ∧ isAuthenticated (state w5) = true
    ∧ is_Some (user (state w5)).
Proof.
  destruct (stale_fetch_is_committed
              initialWorld
              (onAuthStateChanged (Some {| uid := "A" |}) initialWorld)
              (onAuthStateChanged None
                 (onAuthStateChanged (Some {| uid := "A" |}) initialWorld))
              {| uid := "A" |} [] []
              (Fulfilled {[ "email" := VStr "a@x.com" ]}))
    as (_ & w5 & Hstep & Hauth & _ & _ & u & Hu & _).
  - reflexivity.
  - reflexivity.
  - vm_compute. reflexivity.
  - exists w5. split; [exact Hstep|]. split; [exact Hauth|]. by exists u.
Defined.

(** C9: evaluation at the failing input.  The provider reports subject 'u1'
    and the backend profile carries a uid property of its own, 'u2'.  In
    { uid, ...profile } the spread comes after uid, so the committed user
    has uid 'u2', while line 55 stores the provider's 'u1' in the cache. *)
Theorem profile_uid_replaces_session_uid :
  ∃ w u,
    run [AuthStateChanged (Some {| uid := "u1" |});
         ProfileSettled 0 (Fulfilled {[ "uid" := VStr "u2";
                                        "email" := VStr "a@x.com" ]})]
        initialWorld = Some w
    ∧ user (state w) = Some u
    ∧ u !! "uid" = Some (VStr "u2")
    ∧ u !! "uid" ≠ Some (VStr "u1")
    ∧ cache w = Some (EmptyString, "u1").
Proof.
  eexists. eexists. split; [vm_compute; reflexivity|].
  split; [reflexivity|]. split; [vm_compute; reflexivity|].
  split; [vm_compute; discriminate | reflexivity].
Qed.

(* The two sibling paths of the listener do end the loading phase. *)
Lemma listener_success_and_absence_stop_loading
    (w : World) (i : nat) (subject : string) (profile : JsObject) :
  isLoading (state (onProfileSettled i subject (Fulfilled profile) w)) = false
  ∧ isLoading (state (onAuthStateChanged None w)) = false.
Proof. done. Qed.

(** C5: evaluation at the failing input.  At start-up the provider reports
    a session for 'u1' and the profile fetch fails.  The listener has then
    run to its end (its promise is settled), no login or signup is in
    flight (no call is suspended at all), and isLoading is still true. *)
Theorem isLoading_stays_true_after_profile_failure :
  ∃ w,
    run [AuthStateChanged (Some {| uid := "u1" |});
         ProfileSettled 0 (Rejected (ErrorInstance "503"))]
        initialWorld = Some w
    ∧ state w = {| user := None; isAuthenticated := false; isLoading := true;
                   error := Some "Failed to load profile" |}
    ∧ tasks w = ∅
    ∧ trace w = [Called GetProfile;
                 ConsoleError "Failed to fetch profile:" (ErrorInstance "503");
                 Commit (state w);
                 Returned 0 (Fulfilled ())].
Proof.
  eexists. split; [vm_compute; reflexivity|].
  repeat split.
Qed.

(* --------------------------------------------------------------------- *)
(* Which code writes what                                                 *)
(* --------------------------------------------------------------------- *)

Lemma step_writes (e : Event) (w w' : World) :
  step e w = Some w' →
  (user (state w') = user (state w)
   ∧ isAuthenticated (state w') = isAuthenticated (state w)
   ∧ cache w' = cache w
   ∧ writesIdentity e = false)
  ∨ (e = AuthStateChanged None ∧ state w' = signedOut ∧ cache w' = None)
  ∨ (∃ i subject profile,
        e = ProfileSettled i (Fulfilled profile)
        ∧ tasks w !! i = Some (AwaitProfile subject)
        ∧ state w' = profileLoaded subject profile
        ∧ cache w' = Some (EmptyString, subject)).
Proof.
  intros Hstep. step_cases Hstep.
  - by left.
  - right; by left.
  - by left.
  - by left.
  - by left.
  - destruct r as [profile|t]; [|by left].
    right; right. by exists i, subject, profile.
  - destruct r; by left.
  - destruct r; by left.
  - destruct r as [[]|?], b as [[]|?]; by left.
  - destruct r; by left.
Qed.

(** X1: user, isAuthenticated and the credential cache are written by the
    listener alone.  No call of login, signup, logout or clearError, no
    settled backend call, token exchange or sign-out, no failed profile
    fetch and no start of a fetch changes any of the three; a state turns
    authenticated only when a profile fetch is fulfilled, and a present
    user is removed only by an absence event. *)
Theorem identity_written_only_by_listener (e : Event) (w w' : World) :
  step e w = Some w' →
  (writesIdentity e = false →
     user (state w') = user (state w)
     ∧ isAuthenticated (state w') = isAuthenticated (state w)
     ∧ cache w' = cache w)
  ∧ (isAuthenticated (state w) = false → isAuthenticated (state w') = true →
       ∃ i profile, e = ProfileSettled i (Fulfilled profile))
  ∧ (is_Some (user (state w)) → user (state w') = None →
       e = AuthStateChanged None).
Proof.
  intros Hstep.
  destruct (step_writes e w w' Hstep)
    as [(Hu & Ha & Hc & Hq) | [(-> & Hs & Hc) | (i & subject & profile & -> & _ & Hs & Hc)]].
  - split; [done|]. split.
    + intros H0 H1. congruence.
    + intros [u Hsome] Hnone. congruence.
  - split; [done|]. split; [|done].
    intros _ H1. by rewrite Hs in H1.
  - split; [done|]. split; [by exists i, profile|].
    intros _ Hnone. by rewrite Hs in Hnone.
Qed.

Lemma identity_written_only_by_listener_witness :
  ∃ w', step (BackendSettled 0 (Rejected (ErrorInstance "invalid credentials")))
             (startOp Login "a@x.com" "pw" initialWorld) = Some w'
    ∧ user (state w') = None
    ∧ isAuthenticated (state w') = false
    ∧ cache w' = None.
Proof.
  eexists. split; [vm_compute; reflexivity|].
  refine (proj1 (identity_written_only_by_listener
            (BackendSettled 0 (Rejected (ErrorInstance "invalid credentials")))
            (startOp Login "a@x.com" "pw" initialWorld) _ _) _).
  - vm_compute. reflexivity.
  - reflexivity.
Defined.

Lemma run_snoc (evs : list Event) (e : Event) (w0 w : World) :
  run (evs ++ [e]) w0 = Some w →
  ∃ w1, run evs w0 = Some w1 ∧ step e w1 = Some w.
Proof.
  rewrite run_app. destruct (run evs w0) as [w1|]; simpl; [|done].
  intros H. exists w1. split; [done|]. by destruct (step e w1).
Qed.

Lemma keepsIdentity_snoc (evs : list Event) (e : Event) :
  keepsIdentity evs = true → writesIdentity e = false →
  keepsIdentity (evs ++ [e]) = true.
Proof.
  unfold keepsIdentity. intros H He. rewrite forallb_app, H. simpl. by rewrite He.
Qed.

(* Where a suspended profile fetch comes from. *)
Lemma awaitProfile_step (e : Event) (w w' : World) (i : nat) (subject : string) :
  step e w = Some w' →
  tasks w' !! i = Some (AwaitProfile subject) →
  tasks w !! i = Some (AwaitProfile subject)
  ∨ e = AuthStateChanged (Some {| uid := subject |}).
Proof.
  intros Hstep Hi. step_cases Hstep;
    try destruct r as [?|?]; try destruct b as [?|?]; simpl in Hi;
    rewrite ?lookup_delete, ?lookup_insert in Hi;
    repeat case_decide; simplify_eq; auto.
  right. by destruct fu.
Qed.

Lemma fetchesFromPresence_step (evs : list Event) (e : Event) (w w' : World) :
  step e w = Some w' →
  fetchesFromPresence evs w → fetchesFromPresence (evs ++ [e]) w'.
Proof.
  intros Hstep Hw i subject Hi. apply elem_of_app.
  destruct (awaitProfile_step e w w' i subject Hstep Hi) as [Hold| ->].
  - left. by apply (Hw i subject).
  - right. apply list_elem_of_here.
Qed.

Lemma identityFrom_step (evs : list Event) (e : Event) (w w' : World) :
  run evs initialWorld = Some w → step e w = Some w' →
  identityFrom evs w → identityFrom (evs ++ [e]) w'.
Proof.
  intros Hrun Hstep Hw.
  destruct (step_writes e w w' Hstep)
    as [(Hu & _ & Hc & Hq) | [(-> & Hs & Hc) | (i & subject & profile & -> & Hi & Hs & Hc)]].
  - (* e writes neither: the last writer stays the same *)
    destruct Hw as [(Hc0 & Hu0 & Hlast)
                   | (subject & profile & evs1 & evs2 & w1 & i & Hc0 & Hu0 & -> & Hk & Hr & Hi)].
    + left. rewrite Hc, Hu. split; [done|]. split; [done|].
      destruct Hlast as [Hk | (evs1 & evs2 & -> & Hk)].
      * left. by apply keepsIdentity_snoc.
      * right. exists evs1, (evs2 ++ [e]). rewrite <- app_assoc. split; [done|].
        by apply keepsIdentity_snoc.
    + right. exists subject, profile, evs1, (evs2 ++ [e]), w1, i.
      rewrite Hc, Hu, <- app_assoc. repeat split; try done.
      by apply keepsIdentity_snoc.
  - (* absence *)
    left. rewrite Hc, Hs. split; [done|]. split; [done|].
    right. by exists evs, [].
  - (* a fulfilled fetch *)
    right. exists subject, profile, evs, [], w, i. by rewrite Hc, Hs.
Qed.

Lemma identityFrom_run (evs : list Event) :
  ∀ w, run evs initialWorld = Some w →
       identityFrom evs w ∧ fetchesFromPresence evs w.
Proof.
  induction evs as [|e evs IH] using rev_ind; intros w Hrun.
  - injection Hrun as <-. split.
    + left. repeat split. by left.
    + intros i subject Hi. simpl in Hi. by rewrite lookup_empty in Hi.
  - apply run_snoc in Hrun as (w1 & Hrun & Hstep).
    destruct (IH w1 Hrun) as [Hid Hfetch]. split.
    + by apply (identityFrom_step evs e w1).
    + by apply (fetchesFromPresence_step evs e w1).
Qed.

(** X2: in every reachable world the cache and the user field come from
    the same run of the listener, the last one that wrote them.  Either the
    cache is empty and user is absent, and then no event of the run wrote
    them or the last one that did was an absence event; or the last such
    event was a fulfilled profile fetch, the cache holds the empty token
    with the subject which that listener call had captured (the uid of a
    presence event that came before), and user is exactly that subject's
    { uid, ...profile } for the profile this fetch delivered.  A present
    user therefore always has a uid property, and it is the cached subject
    unless the delivered profile brought a uid of its own. *)
Theorem cache_and_user_written_together (evs : list Event) (w : World) :
  run evs initialWorld = Some w →
  match cache w, user (state w) with
  | None, None =>
      keepsIdentity evs = true
      ∨ ∃ evs1 evs2,
          evs = evs1 ++ AuthStateChanged None :: evs2
          ∧ keepsIdentity evs2 = true
  | Some (token, subject), Some u =>
      token = EmptyString
      ∧ is_Some (u !! "uid")
      ∧ ∃ (profile : JsObject) evs1 evs2 w1 i,
          evs = evs1 ++ ProfileSettled i (Fulfilled profile) :: evs2
          ∧ keepsIdentity evs2 = true
          ∧ run evs1 initialWorld = Some w1
          ∧ tasks w1 !! i = Some (AwaitProfile subject)
          ∧ AuthStateChanged (Some {| uid := subject |}) ∈ evs1
          ∧ u = profile ∪ {[ "uid" := VStr subject ]}
          ∧ (profile !! "uid" = None → u !! "uid" = Some (VStr subject))
  | _, _ => False
  end.
Proof.
  intros Hrun.
  destruct (identityFrom_run evs w Hrun) as [Hid _].
  destruct Hid as [(Hc & Hu & Hlast)
                  | (subject & profile & evs1 & evs2 & w1 & i & Hc & Hu & Hevs & Hk & Hr & Hi)];
    rewrite Hc, Hu; [done|].
  split; [done|]. split.
  - unfold spread. destruct (profile !! "uid") as [v|] eqn:E.
    + exists v. by apply lookup_union_Some_l.
    + exists (VStr subject). rewrite lookup_union_r by done.
      apply lookup_singleton_eq.
  - exists profile, evs1, evs2, w1, i. repeat split; try done.
    + destruct (identityFrom_run evs1 w1 Hr) as [_ Hfetch]. by apply (Hfetch i subject).
    + intros E. rewrite spread_lookup_target by done. apply lookup_singleton_eq.
Qed.

Lemma cache_and_user_written_together_witness :
  ∃ w, run [AuthStateChanged (Some {| uid := "u1" |});
            ProfileSettled 0 (Fulfilled {[ "email" := VStr "a@x.com" ]});
            CallLogout]
           initialWorld = Some w
    ∧ match cache w, user (state w) with
      | None, None =>
          keepsIdentity
            [AuthStateChanged (Some {| uid := "u1" |});
             ProfileSettled 0 (Fulfilled {[ "email" := VStr "a@x.com" ]});
             CallLogout] = true
          ∨ ∃ evs1 evs2,
              [AuthStateChanged (Some {| uid := "u1" |});
               ProfileSettled 0 (Fulfilled {[ "email" := VStr "a@x.com" ]});
               CallLogout] = evs1 ++ AuthStateChanged None :: evs2
              ∧ keepsIdentity evs2 = true
      | Some (token, subject), Some u =>
          token = EmptyString
          ∧ is_Some (u !! "uid")
          ∧ ∃ (profile : JsObject) evs1 evs2 w1 i,
              [AuthStateChanged (Some {| uid := "u1" |});
               ProfileSettled 0 (Fulfilled {[ "email" := VStr "a@x.com" ]});
               CallLogout] = evs1 ++ ProfileSettled i (Fulfilled profile) :: evs2
              ∧ keepsIdentity evs2 = true
              ∧ run evs1 initialWorld = Some w1
              ∧ tasks w1 !! i = Some (AwaitProfile subject)
              ∧ AuthStateChanged (Some {| uid := subject |}) ∈ evs1
              ∧ u = profile ∪ {[ "uid" := VStr subject ]}
              ∧ (profile !! "uid" = None → u !! "uid" = Some (VStr subject))
      | _, _ => False
      end.
Proof.
  eexists. split; [vm_compute; reflexivity|].
  apply (cache_and_user_written_together
           [AuthStateChanged (Some {| uid := "u1" |});
            ProfileSettled 0 (Fulfilled {[ "email" := VStr "a@x.com" ]});
            CallLogout]).
  vm_compute. reflexivity.
Defined.

(* --------------------------------------------------------------------- *)
(* Which promises can reject                                              *)
(* --------------------------------------------------------------------- *)

Lemma forallb_snoc {A} (f : A → bool) (l : list A) (x : A) :
  forallb f (l ++ [x]) = forallb f l && f x.
Proof. rewrite forallb_app. simpl. by rewrite andb_true_r. Qed.

Lemma neverRejected_step (e : Event) (w w' : World) :
  step e w = Some w' → callsOp e = false → neverRejected w → neverRejected w'.
Proof.
  intros Hstep He [Htasks Htrace]. step_cases Hstep; try discriminate He.
  - (* presence *)
    split; simpl.
    + intros i k. rewrite lookup_insert. case_decide; [by intros [= <-] | apply Htasks].
    + by rewrite forallb_snoc, Htrace.
  - (* absence *)
    split; simpl; [done|]. by rewrite !forallb_snoc, Htrace.
  - (* logout *)
    split; simpl.
    + intros i k. rewrite lookup_insert. case_decide; [by intros [= <-] | apply Htasks].
    + by rewrite forallb_snoc, Htrace.
  - (* clearError *)
    split; simpl; [done|]. by rewrite forallb_snoc, Htrace.
  - (* the profile fetch settles *)
    destruct r as [profile|t]; (split; simpl;
      [ intros j k; rewrite lookup_delete; case_decide; [done | apply Htasks]
      | by rewrite !forallb_snoc, Htrace ]).
  - (* no login or signup is suspended at its backend call *)
    by specialize (Htasks _ _ Htask).
  - (* nor at its token exchange *)
    by specialize (Htasks _ _ Htask).
  - (* sign-out settles *)
    destruct r as [[]|?], b as [[]|?]; (split; simpl;
      [ intros j k; rewrite lookup_delete; case_decide; [done|]
      | by rewrite !forallb_snoc, Htrace ]); try apply Htasks.
    (* the promise apiClient.logout() returned stays behind *)
    rewrite lookup_insert. case_decide; [by intros [= <-] | apply Htasks].
  - (* the promise of the backend logout settles *)
    destruct r as [[]|?]; (split; simpl;
      [ intros j k; rewrite lookup_delete; case_decide; [done | apply Htasks]
      | by rewrite ?forallb_snoc, Htrace ]).
Qed.

(** X3: only login and signup can reject.  In a run from the initial state
    in which login and signup are never called, whatever the provider and
    the backend do (profile fetches failing, sign-out failing, the backend
    logout call throwing), no promise of the component ever rejects: the
    listener and logout always run to a normal end. *)
Theorem listener_and_logout_never_reject (evs : list Event) (w : World) :
  run evs initialWorld = Some w →
  forallb (λ e, negb (callsOp e)) evs = true →
  ∀ id t, Returned id (Rejected t) ∉ trace w.
Proof.
  intros Hrun Hevs.
  assert (neverRejected w) as [_ Htrace].
  { assert (neverRejected initialWorld) as Hinit by (split; [by intros i k|done]).
    revert Hrun Hevs Hinit. generalize initialWorld.
    induction evs as [|e evs IH]; intros w0 Hrun Hevs Hw0; simpl in *.
    - by injection Hrun as <-.
    - apply andb_true_iff in Hevs as [He Hevs].
      destruct (step e w0) as [w1|] eqn:Hstep; [|done].
      apply (IH w1); [done..|].
      eapply neverRejected_step; [done| |done]. by destruct (callsOp e). }
  intros id t Hin.
  rewrite forallb_forall in Htrace.
  apply list_elem_of_In, Htrace in Hin. done.
Qed.

Lemma listener_and_logout_never_reject_witness :
  ∃ w, run [AuthStateChanged (Some {| uid := "u1" |});
            ProfileSettled 0 (Rejected (ErrorInstance "503"));
            CallLogout;
            SignOutSettled 1 (Rejected (ErrorInstance "network")) (Fulfilled ())]
           initialWorld = Some w
    ∧ ∀ id t, Returned id (Rejected t) ∉ trace w.
Proof.
  eexists. split; [vm_compute; reflexivity|].
  apply (listener_and_logout_never_reject
           [AuthStateChanged (Some {| uid := "u1" |});
            ProfileSettled 0 (Rejected (ErrorInstance "503"));
            CallLogout;
            SignOutSettled 1 (Rejected (ErrorInstance "network")) (Fulfilled ())]).
  - vm_compute. reflexivity.
  - reflexivity.
Defined.

(* --------------------------------------------------------------------- *)
(* login and signup when nothing fails                                    *)
(* --------------------------------------------------------------------- *)



(** X5: a failed login or signup followed by clearError leaves no mark on
    the state but the end of loading: whatever the state was before the
    call and whichever of the two awaits failed, afterwards user and
    isAuthenticated are as before the call, isLoading is false and error is
    absent; the cache is untouched. *)
Theorem failed_op_then_clearError
    (op : Op) (email password : string) (stage : Stage)
    (response : AuthResponse) (t : JsThrown) (w : World) :
  ∃ w',
    run (failingOp op email password stage response (nextId w) t ++ [CallClearError]) w
      = Some w'
    ∧ state w' = {| user := user (state w);
                    isAuthenticated := isAuthenticated (state w);
                    isLoading := false; error := None |}
    ∧ cache w' = cache w
    ∧ tasks w' !! nextId w = None.
Proof.
  destruct stage; simpl; rewrite ?lookup_insert_eq; simpl;
    rewrite ?lookup_insert_eq; simpl;
    (eexists; split; [reflexivity|]); simpl;
    (split; [done|]); (split; [done|]); apply lookup_delete_eq.
Qed.

(** X6: isLoading does not count the operations in flight.  When two
    login or signup calls overlap and the first one fails, its catch block
    sets isLoading to false although the second call is still waiting for
    the backend. *)
Theorem isLoading_false_while_op_pending
    (op1 op2 : Op) (email1 password1 email2 password2 : string)
    (t : JsThrown) (w : World) :
  ∃ w',
    run [CallOp op1 email1 password1; CallOp op2 email2 password2;
         BackendSettled (nextId w) (Rejected t)] w = Some w'
    ∧ isLoading (state w') = false
    ∧ tasks w' !! S (nextId w) = Some (AwaitBackend op2).
Proof.
  simpl.
  rewrite lookup_insert_ne by lia. rewrite lookup_insert_eq.
  eexists. split; [reflexivity|]. split; [done|]. simpl.
  rewrite lookup_delete_ne by lia. apply lookup_insert_eq.
Qed.

(* --------------------------------------------------------------------- *)
(* logout and the collaborators                                           *)
(* --------------------------------------------------------------------- *)

(** X7: logout calls the backend's logout exactly when the provider's
    sign-out succeeded.  If sign-out is rejected, the rest of logout makes
    no call to any collaborator; if it is fulfilled, the one call made is
    the backend logout. *)
Theorem logout_calls_backend_iff_signed_out
    (w : World) (i : nat) (r backendLogout : Settled unit) :
  tasks w !! i = Some AwaitSignOut →
  ∃ w' es,
    step (SignOutSettled i r backendLogout) w = Some w'
    ∧ trace w' = trace w ++ es
    ∧ filter (λ e, isCall e = true) es
      = match r with
        | Fulfilled _ => [Called BackendLogout]
        | Rejected _ => []
        end.
Proof.
  intros Htask. simpl. rewrite Htask.
  destruct r as [[]|t], backendLogout as [[]|t'].
  - exists (onSignOutSettled i (Fulfilled ()) (Fulfilled ()) w),
           [Called BackendLogout; Returned i (Fulfilled ())].
    repeat split. simpl. by rewrite <- !app_assoc.
  - exists (onSignOutSettled i (Fulfilled ()) (Rejected t') w),
           [Called BackendLogout; ConsoleError "Logout failed:" t';
            Returned i (Fulfilled ())].
    repeat split. simpl. by rewrite <- !app_assoc.
  - exists (onSignOutSettled i (Rejected t) (Fulfilled ()) w),
           [ConsoleError "Logout failed:" t; Returned i (Fulfilled ())].
    repeat split. simpl. by rewrite <- !app_assoc.
  - exists (onSignOutSettled i (Rejected t) (Rejected t') w),
           [ConsoleError "Logout failed:" t; Returned i (Fulfilled ())].
    repeat split. simpl. by rewrite <- !app_assoc.
Qed.

Lemma logout_calls_backend_iff_signed_out_witness :
  ∃ w' es,
    step (SignOutSettled 0 (Rejected (ErrorInstance "network")) (Fulfilled ()))
         (startLogout initialWorld) = Some w'
    ∧ trace w' = trace (startLogout initialWorld) ++ es
    ∧ filter (λ e, isCall e = true) es = [].
Proof.
  apply (logout_calls_backend_iff_signed_out
           (startLogout initialWorld) 0
           (Rejected (ErrorInstance "network")) (Fulfilled ())).
  vm_compute. reflexivity.
Defined.

(* --------------------------------------------------------------------- *)
(* One setState per segment                                               *)
(* --------------------------------------------------------------------- *)

(** X8: no stretch of code between two awaits calls setState twice.  Every
    transition either commits nothing and leaves the state cell as it was
    (the start of a profile fetch, the start of logout, a fulfilled backend
    call, a fulfilled token exchange, the end of logout, the settling of the
    promise apiClient.logout() returned), or commits exactly one state,
    which is the new content of the cell; an observer is never shown a
    state that the same segment goes on to replace. *)
Theorem one_commit_per_segment (e : Event) (w w' : World) :
  step e w = Some w' →
  (commits (trace w') = commits (trace w) ∧ state w' = state w)
  ∨ commits (trace w') = commits (trace w) ++ [state w'].
Proof.
  intros Hstep. step_cases Hstep;
    try destruct r as [?|?]; try destruct b as [?|?];
    simpl; rewrite ?commits_app; simpl; rewrite ?app_nil_r;
    first [ by left | by right ].
Qed.

Lemma one_commit_per_segment_witness :
  ∃ w', step (ProfileSettled 0 (Fulfilled {[ "email" := VStr "a@x.com" ]}))
             (onAuthStateChanged (Some {| uid := "u1" |}) initialWorld) = Some w'
    ∧ ((commits (trace w')
          = commits (trace (onAuthStateChanged (Some {| uid := "u1" |}) initialWorld))
        ∧ state w' = state (onAuthStateChanged (Some {| uid := "u1" |}) initialWorld))
       ∨ commits (trace w')
         = commits (trace (onAuthStateChanged (Some {| uid := "u1" |}) initialWorld))
           ++ [state w']).
Proof.
  eexists. split; [vm_compute; reflexivity|].
  apply (one_commit_per_segment
           (ProfileSettled 0 (Fulfilled {[ "email" := VStr "a@x.com" ]}))).
  vm_compute. reflexivity.
Defined.
